(** * snow.request.response: the [Response] decoder

    A shallow embedding of [snow/request/response/__init__.py]: the class
    [Response] (a subclass of aiohttp's [ClientResponse]) with its methods
    [__repr__], [__getitem__], [__iter__], [__len__], [load] and
    [_handle_error].

    Python values are modelled by the inductive type [pyobj], Python
    dictionaries by stdpp's [gmap], exceptions by the type [exn], and a
    method that may raise by the error monad [outcome].  The only attribute
    the class mutates is [data]; [load] is therefore written in
    state-passing style and returns the response after the call. *)

From stdpp Require Import gmap strings list fin_maps pretty.
From Stdlib Require Import ZArith HexadecimalString.

#[local] Set Warnings "-register-all".
#[local] Open Scope Z_scope.

(** ** Python values *)

(** What [json.loads] can produce.  Numbers are kept to the integers;
    strings are sequences of [ascii] characters. *)
Inductive pyobj : Type :=
  | JNull
  | JBool (b : bool)
  | JInt (n : Z)
  | JStr (s : string)
  | JList (l : list pyobj)
  | JDict (m : gmap string pyobj).

(** [isinstance(v, list)] and [isinstance(v, dict)]. *)
Definition isinstance_list (v : pyobj) : bool :=
  match v with JList _ => true | _ => false end.

Definition isinstance_dict (v : pyobj) : bool :=
  match v with JDict _ => true | _ => false end.

(** Python's truth value of an object. *)
Definition truthy (v : pyobj) : bool :=
  match v with
  | JNull => false
  | JBool b => b
  | JInt n => negb (n =? 0)
  | JStr s => negb (String.eqb s "")
  | JList l => negb (Nat.eqb (length l) 0)
  | JDict m => negb (Nat.eqb (size m) 0)
  end.

(** A subscript: an integer index or a string key. *)
Inductive key : Type :=
  | KInt (i : Z)
  | KStr (s : string).

(** ** Exceptions *)

(** The two ways aiohttp's [ClientResponse.json] fails. *)
Inductive json_failure : Type :=
  | ContentTypeError
  | JSONDecodeError.

(** Modelled from the spec: the classes [RequestError], [ServerError] and
    [UnexpectedResponseContent] of [snow/exceptions.py], which is not
    among the sources; each carries a message and a status.  The other
    constructors are the exceptions of Python and of the libraries. *)
Inductive exn : Type :=
  | RequestError (message : string) (status : Z)
  | ServerError (message : string) (status : Z)
  | UnexpectedResponseContent (message : string) (status : Z)
  | JsonFailure (f : json_failure)
  | ValidationError
  | KeyError (k : key)
  | IndexError
  | TypeError
  | AttributeError (name : string).

(** A computation that returns a value or raises. *)
Inductive outcome (A : Type) : Type :=
  | Ok (a : A)
  | Raise (e : exn).

Arguments Ok {A} a.
Arguments Raise {A} e.

Definition bind {A B : Type} (c : outcome A) (k : A -> outcome B) : outcome B :=
  match c with
  | Ok a => k a
  | Raise e => Raise e
  end.

Notation "x <- c ;; k" := (bind c (fun x => k))
  (at level 100, c at next level, right associativity).

Definition raised {A : Type} (c : outcome A) : bool :=
  match c with Ok _ => false | Raise _ => true end.

(** ** Subscripting a Python value: [v[k]] *)

(** A list index counts from the end when negative; what is still out of
    range raises [IndexError]. *)
Definition normalize_index (len i : Z) : option nat :=
  let j := if i <? 0 then i + len else i in
  if (j <? 0) || (len <=? j) then None else Some (Z.to_nat j).

Definition py_getitem (v : pyobj) (k : key) : outcome pyobj :=
  match v, k with
  | JList l, KInt i =>
      match normalize_index (Z.of_nat (length l)) i with
      | Some j =>
          match l !! j with
          | Some x => Ok x
          | None => Raise IndexError
          end
      | None => Raise IndexError
      end
  | JList _, KStr _ => Raise TypeError
  | JDict m, KStr s =>
      match m !! s with
      | Some x => Ok x
      | None => Raise (KeyError k)
      end
  | JDict _, KInt _ => Raise (KeyError k)
  | JStr s, KInt i =>
      match normalize_index (Z.of_nat (String.length s)) i with
      | Some j =>
          match String.get j s with
          | Some c => Ok (JStr (String c EmptyString))
          | None => Raise IndexError
          end
      | None => Raise IndexError
      end
  | _, _ => Raise TypeError
  end.

(** ** The response object *)

(** The attributes and operations [Response] inherits from
    [aiohttp.ClientResponse], with the one attribute of its own.
    [json] is what [await self.json()] yields, [text] what
    [await self.text()] yields, [url_path] is [self.url.path] and
    [obj_id] is [id(self)].  [data] is [None] until it is assigned: the
    class only annotates it. *)
Record Response : Type := mkResponse {
  status : Z;
  reason : string;
  url_path : string;
  text : string;
  json : json_failure + pyobj;
  obj_id : N;
  data : option pyobj
}.

(** [self.data = v] *)
Definition set_data (r : Response) (v : pyobj) : Response :=
  {| status := status r; reason := reason r; url_path := url_path r;
     text := text r; json := json r; obj_id := obj_id r;
     data := Some v |}.

(** Reading [self.data]. *)
Definition get_data (r : Response) : outcome pyobj :=
  match data r with
  | Some d => Ok d
  | None => Raise (AttributeError "data")
  end.

(** ** aiohttp: [raise_for_status] *)

(** The exceptions [_handle_error] catches. *)
Inductive http_exc : Type :=
  | ClientResponseError (message : string) (code : Z)
  | HttpProcessingError (message : string) (code : Z)
  | HTTPException (text : option string) (status : Z).

(** aiohttp raises [ClientResponseError] with the response's status and
    reason when the status is 400 or more, and returns otherwise. *)
Definition raise_for_status (r : Response) : option http_exc :=
  if 400 <=? status r
  then Some (ClientResponseError (reason r) (status r))
  else None.

(** ** marshmallow schemas *)

(** marshmallow's policy for keys a schema does not declare. *)
Inductive unknown_policy : Type :=
  | EXCLUDE
  | INCLUDE
  | RAISE.

(** A loaded error: [err['message']] and [err['detail']]. *)
Record error_content : Type := mkError {
  message : string;
  detail : option string
}.

(** A loaded envelope: a dictionary with at most the keys ["error"] and
    ["result"], and the undeclared keys when the policy keeps them. *)
Record content : Type := mkContent {
  error : option error_content;
  result : option pyobj;
  extra : gmap string pyobj
}.

(** Modelled from the spec: [ErrorSchema] of [snow/request/response/schemas.py],
    which is not among the sources.  The spec gives the shape
    [{"message": <string>, "detail": <string|null>}], with the detail
    possibly absent; an absent detail loads as [None]. *)
Definition ErrorSchema_load (v : pyobj) : outcome error_content :=
  match v with
  | JDict e =>
      match e !! "message" with
      | Some (JStr m) =>
          match e !! "detail" with
          | Some (JStr d) => Ok (mkError m (Some d))
          | Some JNull | None => Ok (mkError m None)
          | Some _ => Raise ValidationError
          end
      | _ => Raise ValidationError
      end
  | _ => Raise ValidationError
  end.

(** The keys of a body that [ContentSchema] does not declare. *)
Definition undeclared (m : gmap string pyobj) : gmap string pyobj :=
  delete "error" (delete "result" m).

(** Modelled from the spec: [ContentSchema] of [snow/request/response/schemas.py],
    which is not among the sources.  The spec gives the envelope
    [{"result": ..., "error": ...}]: the result is taken as it is, the
    error is loaded by [ErrorSchema], and a body that is not a mapping is
    refused. *)
Definition ContentSchema_load (unknown : unknown_policy) (v : pyobj)
  : outcome content :=
  match v with
  | JDict m =>
      err <- match m !! "error" with
             | Some e => e' <- ErrorSchema_load e ;; Ok (Some e')
             | None => Ok None
             end ;;
      match unknown with
      | EXCLUDE => Ok (mkContent err (m !! "result") ∅)
      | INCLUDE => Ok (mkContent err (m !! "result") (undeclared m))
      | RAISE =>
          if Nat.eqb (size (undeclared m)) 0
          then Ok (mkContent err (m !! "result") ∅)
          else Raise ValidationError
      end
  | _ => Raise ValidationError
  end.

(** ** The methods of [Response] *)

(** [hex(n)] for a natural number. *)
Definition hex (n : N) : string :=
  "0x" +:+ HexadecimalString.NilZero.string_of_uint (N.to_hex_uint n).

Definition class_name : string := "Response".

Definition content_overview (d : pyobj) : string :=
  match d with
  | JList l => "Content: List of " +:+ pretty (length l) +:+ " items"
  | _ =>
      if truthy d && isinstance_dict d
      then "Content: Object contained in a dictionary"
      else "Content: Unknown"
  end.

Definition __repr__ (r : Response) : outcome string :=
  d <- get_data r ;;
  Ok ("<" +:+ class_name +:+ " " +:+ hex (obj_id r) +:+ " " +:+ url_path r
      +:+ " [" +:+ pretty (status r) +:+ " " +:+ reason r +:+ "] "
      +:+ content_overview d +:+ ">").

Definition __getitem__ (r : Response) (k : key) : outcome pyobj :=
  d <- get_data r ;;
  py_getitem d k.

Definition __len__ (r : Response) : outcome nat :=
  d <- get_data r ;;
  match d with
  | JList l => Ok (length l)
  | _ => Ok 1%nat
  end.

(** Iterating over a Python value, as [yield from] does: the items of a
    list, the keys of a dictionary, the characters of a string; the other
    values are not iterable.  A [gmap] does not record the order in which
    keys were inserted, which is the order Python follows: the keys come
    in the order of [map_to_list], and nothing below depends on it. *)
Definition py_iter (v : pyobj) : outcome (list pyobj) :=
  match v with
  | JList l => Ok l
  | JDict m => Ok (JStr <$> (map_to_list m).*1)
  | JStr s => Ok ((λ c, JStr (String c EmptyString)) <$> String.list_ascii_of_string s)
  | _ => Raise TypeError
  end.

(** The items the generator [__iter__] produces when it is consumed; the
    generator is lazy, so what is raised here is raised at the first item
    asked for. *)
Definition __iter__ (r : Response) : outcome (list pyobj) :=
  d <- get_data r ;;
  py_iter d.

Definition or_empty (t : option string) : string :=
  match t with
  | Some s => if String.eqb s "" then "" else s
  | None => ""
  end.

Definition _handle_error (r : Response) : outcome unit :=
  match raise_for_status r with
  | Some (ClientResponseError m c) => Raise (ServerError m c)
  | Some (HttpProcessingError m c) => Raise (ServerError m c)
  | Some (HTTPException t s) => Raise (ServerError (or_empty t) s)
  | None =>
      Raise (UnexpectedResponseContent
               ("Unexpected response received from server: " +:+ text r) 200)
  end.

(** An [Optional[str]] as a Python value, and as an f-string prints it. *)
Definition of_optional (o : option string) : pyobj :=
  match o with
  | Some s => JStr s
  | None => JNull
  end.

Definition format_optional (o : option string) : string :=
  match o with
  | Some s => s
  | None => "None"
  end.

(** The part of [load] from the schema on. *)
Definition load_content (r : Response) (body : pyobj) : Response * outcome unit :=
  match ContentSchema_load EXCLUDE body with
  | Raise e => (r, Raise e)
  | Ok c =>
      match error c with
      | Some err =>
          let msg :=
            if truthy (of_optional (detail err))
            then message err +:+ ": " +:+ format_optional (detail err)
            else message err in
          (r, Raise (RequestError msg (status r)))
      | None =>
          match result c with
          | Some x => (set_data r x, Ok tt)
          | None => (r, Raise (KeyError (KStr "result")))
          end
      end
  end.

Definition load (r : Response) : Response * outcome unit :=
  match json r with
  | inl f => (r, Raise (JsonFailure f))
  | inr body =>
      if negb (isinstance_dict body) then
        if status r =? 204 then (set_data r (JDict ∅), Ok tt)
        else
          match _handle_error r with
          | Raise e => (r, Raise e)
          | Ok _ => load_content r body
          end
      else load_content r body
  end.

(** ** Vocabulary of the specification *)

(** [s] occurs in [t]. *)
Definition contains (s t : string) : Prop :=
  ∃ pre post, t = pre +:+ s +:+ post.

(** The diagnostic string around its content summary: class name,
    identity, URL path, status and reason. *)
Definition repr_around (r : Response) (summary : string) : string :=
  "<Response " +:+ hex (obj_id r) +:+ " " +:+ url_path r
  +:+ " [" +:+ pretty (status r) +:+ " " +:+ reason r +:+ "] Content: "
  +:+ summary +:+ ">".

(** ** Sample responses *)

Definition record (id : string) : pyobj := JDict {[ "id" := JStr id ]}.

Definition sample (st : Z) (rsn txt : string) (body : json_failure + pyobj)
  : Response :=
  mkResponse st rsn "/api/now/table/incident" txt body 48879 None.

Definition two_records : Response :=
  sample 200 "OK" "{...}"
    (inr (JDict {[ "result" := JList [record "1"; record "2"];
                   "count" := JInt 2 ]})).

Definition bad_query : Response :=
  sample 400 "Bad Request" "{...}"
    (inr (JDict {[ "error" := JDict {[ "message" := JStr "Bad query";
                                       "detail" := JStr "field 'x' unknown" ]} ]})).

Definition invalid_table : Response :=
  sample 400 "Bad Request" "{...}"
    (inr (JDict {[ "error" := JDict {[ "message" := JStr "Invalid table";
                                       "detail" := JNull ]} ]})).

Definition no_content : Response :=
  sample 204 "No Content" "" (inr JNull).

Definition no_content_with_result : Response :=
  sample 204 "No Content" "{...}"
    (inr (JDict {[ "result" := JList [record "1"] ]})).

Definition server_failure : Response :=
  sample 500 "Internal Server Error" "" (inr JNull).

Definition bare_list : Response :=
  sample 200 "OK" "[1, 2]" (inr (JList [JInt 1; JInt 2])).

Definition undecodable : Response :=
  sample 200 "OK" "<html>ok</html>" (inl JSONDecodeError).

Definition decoded_no_content : Response :=
  set_data no_content (JDict ∅).

Definition decoded_two_records : Response :=
  set_data two_records (JList [record "1"; record "2"]).

Definition decoded_record : Response :=
  set_data two_records (record "1").

Definition failure_with_result : Response :=
  sample 500 "Internal Server Error" "{...}"
    (inr (JDict {[ "result" := JList [record "1"] ]})).

Definition error_and_result : Response :=
  sample 200 "OK" "{...}"
    (inr (JDict {[ "error" := JDict {[ "message" := JStr "Invalid table";
                                       "detail" := JStr "no such table" ]};
                   "result" := JList [record "1"] ]})).

Definition plain_text_500 : Response :=
  sample 500 "Internal Server Error" "Internal Server Error"
    (inl JSONDecodeError).

Definition empty_envelope : Response :=
  sample 200 "OK" "{}" (inr (JDict ∅)).

Definition one_record : Response :=
  sample 200 "OK" "{...}" (inr (JDict {[ "result" := record "1" ]})).

(** ** Basic facts *)

Lemma data_set_data r v : data (set_data r v) = Some v.
Proof. reflexivity. Qed.

Lemma set_data_status r v : status (set_data r v) = status r.
Proof. reflexivity. Qed.

Lemma append_empty_r s : s +:+ "" = s.
Proof.
  induction s as [| c s IH]; [reflexivity |].
  change (String c (s +:+ "") = String c s). by rewrite IH.
Qed.

Lemma get_data_set r d : data r = Some d → get_data r = Ok d.
Proof. unfold get_data. by intros ->. Qed.

Lemma get_data_unset r : data r = None → get_data r = Raise (AttributeError "data").
Proof. unfold get_data. by intros ->. Qed.

Lemma not_dict_cases v :
  isinstance_dict v = false → ∀ m, v ≠ JDict m.
Proof. intros H m ->. discriminate. Qed.

Lemma raise_for_status_error r :
  400 ≤ status r →
  raise_for_status r = Some (ClientResponseError (reason r) (status r)).
Proof.
  intros H. unfold raise_for_status.
  destruct (Z.leb_spec 400 (status r)); [done | lia].
Qed.

Lemma raise_for_status_ok r :
  status r < 400 → raise_for_status r = None.
Proof.
  intros H. unfold raise_for_status.
  destruct (Z.leb_spec 400 (status r)); [lia | done].
Qed.

(** On a body that is not a mapping, [load] answers 204 on its own and
    otherwise ends with what [_handle_error] raises. *)
Lemma load_not_dict r v :
  json r = inr v → isinstance_dict v = false →
  load r = if status r =? 204 then (set_data r (JDict ∅), Ok tt)
           else (r, _handle_error r).
Proof.
  intros Hj Hd. unfold load. rewrite Hj, Hd. simpl.
  destruct (status r =? 204); [done |].
  unfold _handle_error.
  destruct (raise_for_status r) as [[m c | m c | t s] |]; reflexivity.
Qed.

(** What [json] raises, [load] raises, whatever the status. *)
Lemma load_json_failure r f :
  json r = inl f → load r = (r, Raise (JsonFailure f)).
Proof. intros Hj. unfold load. by rewrite Hj. Qed.

Lemma load_dict r m :
  json r = inr (JDict m) → load r = load_content r (JDict m).
Proof. intros Hj. unfold load. by rewrite Hj. Qed.

Lemma handle_error_server r :
  400 ≤ status r →
  _handle_error r = Raise (ServerError (reason r) (status r)).
Proof.
  intros H. unfold _handle_error. by rewrite raise_for_status_error.
Qed.

Lemma handle_error_unexpected r :
  status r < 400 →
  _handle_error r =
    Raise (UnexpectedResponseContent
             ("Unexpected response received from server: " +:+ text r) 200).
Proof.
  intros H. unfold _handle_error. by rewrite raise_for_status_ok.
Qed.

(** [load_content] either leaves the response as it was and raises, or
    assigns [data] and returns. *)
Lemma load_content_cases r body :
  (∃ e, load_content r body = (r, Raise e)) ∨
  (∃ x, load_content r body = (set_data r x, Ok tt)).
Proof.
  unfold load_content.
  destruct (ContentSchema_load EXCLUDE body) as [c | e]; [| left; eauto].
  destruct (error c) as [err |]; [left; eauto |].
  destruct (result c) as [x |]; [right; eauto | left; eauto].
Qed.

Lemma load_cases r :
  (∃ e, load r = (r, Raise e)) ∨ (∃ x, load r = (set_data r x, Ok tt)).
Proof.
  unfold load. destruct (json r) as [f | body]; [left; eauto |].
  destruct (negb (isinstance_dict body)); [| apply load_content_cases].
  destruct (status r =? 204); [right; eauto |].
  destruct (_handle_error r) as [[] | e]; [apply load_content_cases | left; eauto].
Qed.

(** ** [load]: the success envelope *)

Lemma ContentSchema_load_result m x :
  m !! "result" = Some x → m !! "error" = None →
  ContentSchema_load EXCLUDE (JDict m) = Ok (mkContent None (Some x) ∅).
Proof. intros Hr He. unfold ContentSchema_load. rewrite He, Hr. reflexivity. Qed.

(** C1: when the parsed body is a mapping with a ["result"] key and no
    ["error"] key, [load] assigns the value of ["result"] to [data], as it
    is, and raises nothing; whatever other keys the body has are dropped by
    the schema and do not change the outcome. *)
Theorem load_result r m x :
  json r = inr (JDict m) →
  m !! "result" = Some x →
  m !! "error" = None →
  load r = (set_data r x, Ok tt)
  ∧ data (load r).1 = Some x
  ∧ ContentSchema_load EXCLUDE (JDict m) = Ok (mkContent None (Some x) ∅).
Proof.
  intros Hj Hr He.
  assert (load r = (set_data r x, Ok tt)) as Hl.
  { rewrite (load_dict _ _ Hj). unfold load_content.
    by rewrite (ContentSchema_load_result _ _ Hr He). }
  split; [done |]. split; [by rewrite Hl |].
  by rewrite (ContentSchema_load_result _ _ Hr He).
Qed.

Lemma load_result_witness :
  load two_records
  = (set_data two_records (JList [record "1"; record "2"]), Ok tt)
  ∧ data (load two_records).1 = Some (JList [record "1"; record "2"])
  ∧ ContentSchema_load EXCLUDE
      (JDict {[ "result" := JList [record "1"; record "2"]; "count" := JInt 2 ]})
    = Ok (mkContent None (Some (JList [record "1"; record "2"])) ∅).
Proof.
  apply (load_result two_records
           {[ "result" := JList [record "1"; record "2"]; "count" := JInt 2 ]}
           (JList [record "1"; record "2"])); reflexivity.
Defined.

(** ** [load]: the error envelope *)

Lemma load_content_error r m e err :
  m !! "error" = Some e →
  ErrorSchema_load e = Ok err →
  load_content r (JDict m)
  = (r, Raise (RequestError
                 (if truthy (of_optional (detail err))
                  then message err +:+ ": " +:+ format_optional (detail err)
                  else message err)
                 (status r))).
Proof.
  intros He Hs. unfold load_content, ContentSchema_load.
  rewrite He, Hs. reflexivity.
Qed.

Lemma truthy_nonempty d : d ≠ "" → truthy (JStr d) = true.
Proof.
  intros Hd. simpl. destruct (String.eqb_spec d ""); [done | reflexivity].
Qed.

(** C2: when the parsed body is a mapping whose ["error"] field has the
    message [M], [load] raises [RequestError] with the status of the
    response; its message is [M: D] when the detail [D] is a non-empty
    string, and [M] alone when the detail is the empty string, null or
    absent. *)
Theorem load_error r m e M :
  json r = inr (JDict m) →
  m !! "error" = Some (JDict e) →
  e !! "message" = Some (JStr M) →
  (∀ D, e !! "detail" = Some (JStr D) → D ≠ "" →
        load r = (r, Raise (RequestError (M +:+ ": " +:+ D) (status r))))
  ∧ (e !! "detail" = Some (JStr "") ∨ e !! "detail" = Some JNull
     ∨ e !! "detail" = None →
        load r = (r, Raise (RequestError M (status r)))).
Proof.
  intros Hj He HM. rewrite (load_dict _ _ Hj). split.
  - intros D HD Hne.
    rewrite (load_content_error r m (JDict e) (mkError M (Some D)) He).
    + simpl detail. unfold of_optional, format_optional.
      by rewrite (truthy_nonempty _ Hne).
    + unfold ErrorSchema_load. by rewrite HM, HD.
  - intros [HD | [HD | HD]].
    + rewrite (load_content_error r m (JDict e) (mkError M (Some "")) He);
        [done |]. unfold ErrorSchema_load. by rewrite HM, HD.
    + rewrite (load_content_error r m (JDict e) (mkError M None) He);
        [done |]. unfold ErrorSchema_load. by rewrite HM, HD.
    + rewrite (load_content_error r m (JDict e) (mkError M None) He);
        [done |]. unfold ErrorSchema_load. by rewrite HM, HD.
Qed.

Lemma load_error_witness :
  load bad_query
  = (bad_query, Raise (RequestError "Bad query: field 'x' unknown" 400))
  ∧ load invalid_table
    = (invalid_table, Raise (RequestError "Invalid table" 400)).
Proof.
  split.
  - apply (load_error bad_query
             {[ "error" := JDict {[ "message" := JStr "Bad query";
                                    "detail" := JStr "field 'x' unknown" ]} ]}
             {[ "message" := JStr "Bad query";
                "detail" := JStr "field 'x' unknown" ]}
             "Bad query"); [reflexivity .. | discriminate].
  - apply (load_error invalid_table
             {[ "error" := JDict {[ "message" := JStr "Invalid table";
                                    "detail" := JNull ]} ]}
             {[ "message" := JStr "Invalid table"; "detail" := JNull ]}
             "Invalid table"); [reflexivity .. |].
    right; left; reflexivity.
Defined.

(** ** [load]: bodies that are not a mapping *)

(** C3, as stated, fails: a response with status 204 whose body is the
    mapping [{"result": [{"id": "1"}]}] is decoded like any other, and
    [data] becomes the list, not the empty mapping. *)
Lemma load_204_with_result :
  status no_content_with_result = 204
  ∧ load no_content_with_result
    = (set_data no_content_with_result (JList [record "1"]), Ok tt)
  ∧ data (load no_content_with_result).1 ≠ Some (JDict ∅).
Proof. split; [reflexivity |]. split; [reflexivity | discriminate]. Qed.

(** C3: for a response with status 204 whose parsed body is not a mapping
    (an empty body parses to [None]), [load] sets [data] to the empty
    mapping and raises nothing. *)
Theorem load_no_content r v :
  json r = inr v →
  isinstance_dict v = false →
  status r = 204 →
  load r = (set_data r (JDict ∅), Ok tt)
  ∧ data (load r).1 = Some (JDict ∅).
Proof.
  intros Hj Hd Hs.
  assert (load r = (set_data r (JDict ∅), Ok tt)) as Hl.
  { rewrite (load_not_dict _ _ Hj Hd), Hs. reflexivity. }
  split; [done | by rewrite Hl].
Qed.

Lemma load_no_content_witness :
  load no_content = (set_data no_content (JDict ∅), Ok tt)
  ∧ data (load no_content).1 = Some (JDict ∅).
Proof. apply (load_no_content no_content JNull); reflexivity. Defined.

(** When [json] has returned a value that is not a mapping and the status
    is 400 or more, [load] raises [ServerError] with the reason and the
    status of the response. *)
Theorem load_server_error r v :
  json r = inr v →
  isinstance_dict v = false →
  400 ≤ status r →
  load r = (r, Raise (ServerError (reason r) (status r))).
Proof.
  intros Hj Hd Hs. rewrite (load_not_dict _ _ Hj Hd).
  destruct (Z.eqb_spec (status r) 204); [lia |].
  by rewrite handle_error_server.
Qed.

Lemma load_server_error_witness :
  load server_failure
  = (server_failure, Raise (ServerError "Internal Server Error" 500)).
Proof.
  apply (load_server_error server_failure JNull);
    [reflexivity | reflexivity | vm_compute; discriminate].
Defined.

(** C4: the code does not do this for a body that is not JSON at all.
    There [json] raises, and [load], which calls it unguarded, raises that
    failure whatever the status: with a status of 400 or more no
    [ServerError] is raised, although [_handle_error], had it been reached,
    would have raised one with the status of the response. *)
Theorem load_undecodable_error_status r f :
  json r = inl f →
  400 ≤ status r →
  load r = (r, Raise (JsonFailure f))
  ∧ (∀ msg st, (load r).2 ≠ Raise (ServerError msg st))
  ∧ _handle_error r = Raise (ServerError (reason r) (status r)).
Proof.
  intros Hj Hs. rewrite (load_json_failure _ _ Hj).
  split; [done |]. split; [done |]. by apply handle_error_server.
Qed.

Lemma load_undecodable_error_status_witness :
  load plain_text_500 = (plain_text_500, Raise (JsonFailure JSONDecodeError))
  ∧ (∀ msg st, (load plain_text_500).2 ≠ Raise (ServerError msg st))
  ∧ _handle_error plain_text_500
    = Raise (ServerError "Internal Server Error" 500).
Proof.
  apply (load_undecodable_error_status plain_text_500 JSONDecodeError);
    [reflexivity | vm_compute; discriminate].
Defined.

(** C5, as stated, fails: a response with status 204 (which is below 400)
    and an empty body raises nothing. *)
Lemma load_204_does_not_raise :
  json no_content = inr JNull
  ∧ isinstance_dict JNull = false
  ∧ status no_content < 400
  ∧ (load no_content).2 = Ok tt.
Proof. repeat split. Qed.

(** C5: when the parsed body is not a mapping and the status is below 400
    and is not 204, [load] raises [UnexpectedResponseContent] with the
    status 200, whatever the status of the response, and with a message
    that ends with the raw text of the body. *)
Theorem load_unexpected r v :
  json r = inr v →
  isinstance_dict v = false →
  status r < 400 →
  status r ≠ 204 →
  ∃ msg,
    load r = (r, Raise (UnexpectedResponseContent msg 200))
    ∧ msg = "Unexpected response received from server: " +:+ text r
    ∧ contains (text r) msg.
Proof.
  intros Hj Hd Hs Hn. eexists. split; [| split; [reflexivity |]].
  - rewrite (load_not_dict _ _ Hj Hd).
    destruct (Z.eqb_spec (status r) 204); [done |].
    by rewrite handle_error_unexpected.
  - exists "Unexpected response received from server: ", "".
    by rewrite append_empty_r.
Qed.

Lemma load_unexpected_witness :
  ∃ msg,
    load bare_list = (bare_list, Raise (UnexpectedResponseContent msg 200))
    ∧ msg = "Unexpected response received from server: " +:+ text bare_list
    ∧ contains (text bare_list) msg.
Proof.
  apply (load_unexpected bare_list (JList [JInt 1; JInt 2]));
    [reflexivity | reflexivity | reflexivity | discriminate].
Defined.

(** ** [data] after [load] *)

(** C6: on a response whose [data] has not been assigned yet, [data] is
    set after [load] exactly when [load] raised nothing; on every path
    that raises, the response is left as it was. *)
Theorem load_data_iff r :
  data r = None →
  (is_Some (data (load r).1) ↔ (load r).2 = Ok tt)
  ∧ (raised (load r).2 = true → (load r).1 = r).
Proof.
  intros Hr.
  destruct (load_cases r) as [[e ->] | [x ->]]; simpl.
  - rewrite Hr. split; [| done].
    split; [by intros [? ?] | discriminate].
  - split; [| discriminate]. split; [done | by eexists].
Qed.

Lemma load_data_iff_witness :
  (is_Some (data (load undecodable).1) ↔ (load undecodable).2 = Ok tt)
  ∧ (raised (load undecodable).2 = true → (load undecodable).1 = undecodable).
Proof. apply (load_data_iff undecodable). reflexivity. Defined.

(** ** The read view *)

(** C7: once [data] is set, the length of the decoder is the length of
    [data] when it is a list, and 1 when it is a mapping, the empty one
    included. *)
Theorem len_of_data r d :
  data r = Some d →
  (∀ l, d = JList l → __len__ r = Ok (length l))
  ∧ (∀ m, d = JDict m → __len__ r = Ok 1%nat).
Proof.
  intros Hd. unfold __len__. rewrite (get_data_set _ _ Hd).
  split; by intros ? ->.
Qed.

Lemma len_of_data_witness :
  __len__ decoded_two_records = Ok 2%nat
  ∧ __len__ decoded_no_content = Ok 1%nat.
Proof.
  split.
  - exact (proj1 (len_of_data decoded_two_records
                    (JList [record "1"; record "2"]) eq_refl) _ eq_refl).
  - exact (proj2 (len_of_data decoded_no_content (JDict ∅) eq_refl) _ eq_refl).
Defined.

Lemma normalize_index_valid (n : nat) (i : nat) :
  (i < n)%nat → normalize_index (Z.of_nat n) (Z.of_nat i) = Some i.
Proof.
  intros Hi. unfold normalize_index.
  destruct (Z.ltb_spec (Z.of_nat i) 0); [lia |].
  destruct (Z.ltb_spec (Z.of_nat i) 0); [lia |].
  destruct (Z.leb_spec (Z.of_nat n) (Z.of_nat i)); [lia |].
  simpl. by rewrite Nat2Z.id.
Qed.

Lemma normalize_index_negative (n : nat) (i : nat) :
  (i < n)%nat →
  normalize_index (Z.of_nat n) (Z.of_nat i - Z.of_nat n) = Some i.
Proof.
  intros Hi. unfold normalize_index.
  destruct (Z.ltb_spec (Z.of_nat i - Z.of_nat n) 0); [| lia].
  destruct (Z.ltb_spec (Z.of_nat i - Z.of_nat n + Z.of_nat n) 0); [lia |].
  destruct (Z.leb_spec (Z.of_nat n) (Z.of_nat i - Z.of_nat n + Z.of_nat n));
    [lia |].
  simpl. f_equal. lia.
Qed.

Lemma normalize_index_out (n i : Z) :
  0 ≤ n → n ≤ i ∨ i < - n → normalize_index n i = None.
Proof.
  intros Hn Hi. unfold normalize_index.
  destruct (Z.ltb_spec i 0).
  - destruct (Z.ltb_spec (i + n) 0); [done |].
    destruct (Z.leb_spec n (i + n)); [done | lia].
  - destruct (Z.ltb_spec i 0); [lia |].
    destruct (Z.leb_spec n i); [done | lia].
Qed.

Lemma py_getitem_list_valid (l : list pyobj) (i : nat) x :
  l !! i = Some x → py_getitem (JList l) (KInt (Z.of_nat i)) = Ok x.
Proof.
  intros Hx. simpl.
  rewrite normalize_index_valid by (by eapply lookup_lt_Some).
  by rewrite Hx.
Qed.

Lemma py_getitem_list_negative (l : list pyobj) (i : nat) x :
  l !! i = Some x →
  py_getitem (JList l) (KInt (Z.of_nat i - Z.of_nat (length l))) = Ok x.
Proof.
  intros Hx. simpl.
  rewrite normalize_index_negative by (by eapply lookup_lt_Some).
  by rewrite Hx.
Qed.

Lemma py_getitem_list_out (l : list pyobj) (i : Z) :
  Z.of_nat (length l) ≤ i ∨ i < - Z.of_nat (length l) →
  py_getitem (JList l) (KInt i) = Raise IndexError.
Proof.
  intros Hi. simpl. by rewrite normalize_index_out by (lia || done).
Qed.

(** C8: once [data] is set, subscripting the decoder is subscripting
    [data]: the same value when the key is valid (an index within a list,
    counted from either end, or a key of a mapping), and the same error
    when it is not ([IndexError] out of range, [KeyError] for a key the
    mapping does not have). *)
Theorem getitem_of_data r d k :
  data r = Some d →
  __getitem__ r k = py_getitem d k
  ∧ (∀ (l : list pyobj) (i : nat) x,
       d = JList l → l !! i = Some x →
       (k = KInt (Z.of_nat i) ∨ k = KInt (Z.of_nat i - Z.of_nat (length l))) →
       __getitem__ r k = Ok x)
  ∧ (∀ (l : list pyobj) (i : Z),
       d = JList l → k = KInt i →
       Z.of_nat (length l) ≤ i ∨ i < - Z.of_nat (length l) →
       __getitem__ r k = Raise IndexError)
  ∧ (∀ (m : gmap string pyobj) s x,
       d = JDict m → k = KStr s → m !! s = Some x →
       __getitem__ r k = Ok x)
  ∧ (∀ (m : gmap string pyobj) s,
       d = JDict m → k = KStr s → m !! s = None →
       __getitem__ r k = Raise (KeyError (KStr s))).
Proof.
  intros Hd.
  assert (__getitem__ r k = py_getitem d k) as Hg.
  { unfold __getitem__. by rewrite (get_data_set _ _ Hd). }
  rewrite Hg. split; [done |]. split; [| split; [| split]].
  - intros l i x -> Hx [-> | ->].
    + by apply py_getitem_list_valid.
    + by apply py_getitem_list_negative.
  - intros l i -> -> Hi. by apply py_getitem_list_out.
  - intros m s x -> -> Hx. simpl. by rewrite Hx.
  - intros m s -> -> Hx. simpl. by rewrite Hx.
Qed.

Lemma getitem_of_data_witness :
  __getitem__ decoded_two_records (KInt 0) = Ok (record "1")
  ∧ __getitem__ decoded_two_records (KInt 2) = Raise IndexError
  ∧ __getitem__ decoded_record (KStr "id") = Ok (JStr "1")
  ∧ __getitem__ decoded_record (KStr "name") = Raise (KeyError (KStr "name")).
Proof.
  split; [| split; [| split]].
  - destruct (getitem_of_data decoded_two_records
                (JList [record "1"; record "2"]) (KInt 0) eq_refl)
      as (_ & Hvalid & _).
    apply (Hvalid [record "1"; record "2"] 0%nat (record "1"));
      [reflexivity | reflexivity | left; reflexivity].
  - destruct (getitem_of_data decoded_two_records
                (JList [record "1"; record "2"]) (KInt 2) eq_refl)
      as (_ & _ & Hout & _).
    apply (Hout [record "1"; record "2"] 2); [reflexivity | reflexivity |].
    left. vm_compute. discriminate.
  - destruct (getitem_of_data decoded_record (record "1") (KStr "id") eq_refl)
      as (_ & _ & _ & Hkey & _).
    apply (Hkey {[ "id" := JStr "1" ]} "id"); reflexivity.
  - destruct (getitem_of_data decoded_record (record "1") (KStr "name") eq_refl)
      as (_ & _ & _ & _ & Hmiss).
    apply (Hmiss {[ "id" := JStr "1" ]} "name"); reflexivity.
Defined.

(** ** The diagnostic representation *)

Lemma repr_unset r :
  data r = None → __repr__ r = Raise (AttributeError "data").
Proof. intros Hd. unfold __repr__. by rewrite (get_data_unset _ Hd). Qed.

Lemma repr_set r d :
  data r = Some d →
  __repr__ r
  = Ok ("<Response " +:+ hex (obj_id r) +:+ " " +:+ url_path r
        +:+ " [" +:+ pretty (status r) +:+ " " +:+ reason r +:+ "] "
        +:+ content_overview d +:+ ">").
Proof. intros Hd. unfold __repr__. by rewrite (get_data_set _ _ Hd). Qed.

Lemma size_nonempty (m : gmap string pyobj) :
  m ≠ ∅ → Nat.eqb (size m) 0 = false.
Proof.
  intros Hm. apply Nat.eqb_neq. intros Hs. by apply Hm, map_size_empty_inv.
Qed.

(** C9, as stated, fails: for the empty mapping, which is what [load]
    leaves in [data] after a 204, the summary is "Unknown" and not the
    one of a dictionary. *)
Lemma repr_empty_mapping :
  data decoded_no_content = Some (JDict ∅)
  ∧ __repr__ decoded_no_content
    = Ok "<Response 0xbeef /api/now/table/incident [204 No Content] Content: Unknown>"
  ∧ __repr__ decoded_no_content
    ≠ Ok (repr_around decoded_no_content "Object contained in a dictionary").
Proof. split; [reflexivity |]. split; [reflexivity | vm_compute; discriminate]. Qed.

(** C9: once [data] is set, the representation is the string
    [<Response ID PATH [STATUS REASON] Content: SUMMARY>], with the
    identity in hexadecimal, where the summary is "List of N items" when
    [data] is a list of [N] elements, "Object contained in a dictionary"
    when [data] is a mapping that is not empty, and "Unknown" when it is
    the empty mapping or neither a list nor a mapping. *)
Theorem repr_of_data r d :
  data r = Some d →
  (∀ l, d = JList l →
        __repr__ r
        = Ok (repr_around r ("List of " +:+ pretty (length l) +:+ " items")))
  ∧ (∀ m, d = JDict m → m ≠ ∅ →
          __repr__ r = Ok (repr_around r "Object contained in a dictionary"))
  ∧ (d = JDict ∅ ∨ (isinstance_list d = false ∧ isinstance_dict d = false) →
     __repr__ r = Ok (repr_around r "Unknown")).
Proof.
  intros Hd. rewrite (repr_set _ _ Hd). split; [| split].
  - intros l ->. reflexivity.
  - intros m -> Hm. unfold content_overview, truthy.
    rewrite (size_nonempty _ Hm). reflexivity.
  - intros [-> | [Hl Hm]]; [reflexivity |].
    destruct d; try discriminate; unfold content_overview;
      simpl isinstance_dict; rewrite andb_false_r; reflexivity.
Qed.

Lemma repr_of_data_witness :
  __repr__ decoded_two_records
  = Ok "<Response 0xbeef /api/now/table/incident [200 OK] Content: List of 2 items>"
  ∧ __repr__ decoded_record
    = Ok "<Response 0xbeef /api/now/table/incident [200 OK] Content: Object contained in a dictionary>"
  ∧ __repr__ decoded_no_content
    = Ok "<Response 0xbeef /api/now/table/incident [204 No Content] Content: Unknown>".
Proof.
  split; [| split].
  - exact (proj1 (repr_of_data decoded_two_records
                    (JList [record "1"; record "2"]) eq_refl) _ eq_refl).
  - refine (proj1 (proj2 (repr_of_data decoded_record (record "1") eq_refl))
              {[ "id" := JStr "1" ]} eq_refl _).
    vm_compute. discriminate.
  - exact (proj2 (proj2 (repr_of_data decoded_no_content (JDict ∅) eq_refl))
             (or_introl eq_refl)).
Defined.

(** ** [_handle_error] *)

(** C10: [_handle_error] never returns: whatever the response, it raises
    [ServerError] or [UnexpectedResponseContent].  Hence, on a body that is
    not a mapping, [load] ends either at the 204 case or with the
    exception of [_handle_error], and never goes on to the schema. *)
Theorem handle_error_raises r :
  (∃ msg st,
     _handle_error r = Raise (ServerError msg st)
     ∨ _handle_error r = Raise (UnexpectedResponseContent msg st))
  ∧ (∀ v, json r = inr v → isinstance_dict v = false →
          load r = (if status r =? 204 then (set_data r (JDict ∅), Ok tt)
                    else (r, _handle_error r))
          ∧ (load r).2 ≠ Raise ValidationError).
Proof.
  assert (∃ msg st,
     _handle_error r = Raise (ServerError msg st)
     ∨ _handle_error r = Raise (UnexpectedResponseContent msg st)) as Hh.
  { unfold _handle_error.
    destruct (raise_for_status r) as [[m c | m c | t s] |]; eauto. }
  split; [done |].
  intros v Hj Hd. rewrite (load_not_dict _ _ Hj Hd). split; [done |].
  destruct (status r =? 204); [discriminate |].
  destruct Hh as (msg & st & [-> | ->]); discriminate.
Qed.

Lemma handle_error_raises_witness :
  (∃ msg st,
     _handle_error bare_list = Raise (ServerError msg st)
     ∨ _handle_error bare_list = Raise (UnexpectedResponseContent msg st))
  ∧ load bare_list = (bare_list, _handle_error bare_list)
  ∧ (load bare_list).2 ≠ Raise ValidationError.
Proof.
  destruct (handle_error_raises bare_list) as [Hraise Hload].
  split; [exact Hraise |].
  exact (Hload (JList [JInt 1; JInt 2]) eq_refl eq_refl).
Defined.

(** * Further properties *)

(** ** The read view before [load] *)

Lemma iter_set r d : data r = Some d → __iter__ r = py_iter d.
Proof. intros Hd. unfold __iter__. by rewrite (get_data_set _ _ Hd). Qed.

Lemma getitem_set r d k : data r = Some d → __getitem__ r k = py_getitem d k.
Proof. intros Hd. unfold __getitem__. by rewrite (get_data_set _ _ Hd). Qed.

Lemma len_set r d :
  data r = Some d →
  __len__ r = Ok (match d with JList l => length l | _ => 1%nat end).
Proof.
  intros Hd. unfold __len__. rewrite (get_data_set _ _ Hd). by destruct d.
Qed.

(** X1: as long as [data] has not been assigned, every operation of the
    read view raises [AttributeError]: the length, a subscript with any
    key, the iteration and the representation. *)
Theorem read_view_before_load r :
  data r = None →
  __len__ r = Raise (AttributeError "data")
  ∧ (∀ k, __getitem__ r k = Raise (AttributeError "data"))
  ∧ __iter__ r = Raise (AttributeError "data")
  ∧ __repr__ r = Raise (AttributeError "data").
Proof.
  intros Hd. unfold __len__, __getitem__, __iter__, __repr__.
  rewrite (get_data_unset _ Hd). by repeat split.
Qed.

Lemma read_view_before_load_witness :
  __len__ two_records = Raise (AttributeError "data")
  ∧ (∀ k, __getitem__ two_records k = Raise (AttributeError "data"))
  ∧ __iter__ two_records = Raise (AttributeError "data")
  ∧ __repr__ two_records = Raise (AttributeError "data").
Proof. exact (read_view_before_load two_records eq_refl). Defined.

(** ** Length *)

(** X2: the length of the decoder is 0 exactly when [data] is the empty
    list; for every value that is not a list (a mapping, [None], a number,
    a string) it is 1. *)
Theorem len_zero_iff r :
  (__len__ r = Ok 0%nat ↔ data r = Some (JList []))
  ∧ (∀ d, data r = Some d → isinstance_list d = false → __len__ r = Ok 1%nat).
Proof.
  split.
  - split.
    + unfold __len__, get_data. destruct (data r) as [d |]; [| done].
      simpl. destruct d as [| | | | l |]; try discriminate.
      destruct l; [done | discriminate].
    + intros Hd. by rewrite (len_set _ _ Hd).
  - intros d Hd Hl. rewrite (len_set _ _ Hd). by destruct d.
Qed.

Lemma len_zero_iff_witness :
  __len__ (set_data two_records (JList [])) = Ok 0%nat
  ∧ __len__ (set_data two_records (JStr "abc")) = Ok 1%nat.
Proof.
  split.
  - exact (proj2 (proj1 (len_zero_iff (set_data two_records (JList []))))
             eq_refl).
  - exact (proj2 (len_zero_iff (set_data two_records (JStr "abc")))
             (JStr "abc") eq_refl eq_refl).
Defined.

(** ** Subscripts and length of a list *)

Lemma normalize_index_in_range (n i : Z) :
  - n ≤ i < n → normalize_index n i = Some (Z.to_nat (i `mod` n)).
Proof.
  intros Hi. unfold normalize_index.
  destruct (Z.ltb_spec i 0).
  - destruct (Z.ltb_spec (i + n) 0); [lia |].
    destruct (Z.leb_spec n (i + n)); [lia |]. simpl.
    do 2 f_equal. apply Z.mod_unique with (-1); lia.
  - destruct (Z.ltb_spec i 0); [lia |].
    destruct (Z.leb_spec n i); [lia |]. simpl.
    by rewrite Z.mod_small by lia.
Qed.

(** X3: when [data] is a list and [n] is the length of the decoder, the
    subscripts that succeed are exactly the integers from [-n] to [n - 1];
    such a subscript [i] gives the element of [data] at position
    [i mod n], and every other integer raises [IndexError]. *)
Theorem getitem_within_len r l n i :
  data r = Some (JList l) →
  __len__ r = Ok n →
  (- Z.of_nat n ≤ i < Z.of_nat n →
     ∃ x, l !! Z.to_nat (i `mod` Z.of_nat n) = Some x
          ∧ __getitem__ r (KInt i) = Ok x)
  ∧ (¬ (- Z.of_nat n ≤ i < Z.of_nat n) →
     __getitem__ r (KInt i) = Raise IndexError).
Proof.
  intros Hd Hn. rewrite (len_set _ _ Hd) in Hn. injection Hn as <-.
  rewrite (getitem_set _ _ _ Hd). split.
  - intros Hi. simpl. rewrite (normalize_index_in_range _ _ Hi).
    destruct (lookup_lt_is_Some_2 l (Z.to_nat (i `mod` Z.of_nat (length l))))
      as [x Hx].
    { pose proof (Z.mod_pos_bound i (Z.of_nat (length l))). lia. }
    exists x. by rewrite Hx.
  - intros Hi. apply py_getitem_list_out. lia.
Qed.

Lemma getitem_within_len_witness :
  (∃ x, [record "1"; record "2"] !! Z.to_nat ((-1) `mod` Z.of_nat 2) = Some x
        ∧ __getitem__ decoded_two_records (KInt (-1)) = Ok x)
  ∧ __getitem__ decoded_two_records (KInt (-3)) = Raise IndexError.
Proof.
  split.
  - apply (proj1 (getitem_within_len decoded_two_records
                    [record "1"; record "2"] 2 (-1) eq_refl eq_refl)).
    lia.
  - apply (proj2 (getitem_within_len decoded_two_records
                    [record "1"; record "2"] 2 (-3) eq_refl eq_refl)).
    lia.
Defined.

(** ** Iteration *)

(** X4: when [data] is a list, iterating over the decoder produces the
    elements of [data] in order: as many as the length of the decoder, the
    one at position [i] being what the subscript [i] returns. *)
Theorem iter_list r l :
  data r = Some (JList l) →
  __iter__ r = Ok l
  ∧ __len__ r = Ok (length l)
  ∧ (∀ (i : nat) x, l !! i = Some x → __getitem__ r (KInt (Z.of_nat i)) = Ok x).
Proof.
  intros Hd. rewrite (iter_set _ _ Hd), (len_set _ _ Hd).
  split; [done |]. split; [done |].
  intros i x Hx. rewrite (getitem_set _ _ _ Hd).
  by apply py_getitem_list_valid.
Qed.

Lemma iter_list_witness :
  __iter__ decoded_two_records = Ok [record "1"; record "2"]
  ∧ __len__ decoded_two_records = Ok 2%nat
  ∧ (∀ (i : nat) x, [record "1"; record "2"] !! i = Some x →
       __getitem__ decoded_two_records (KInt (Z.of_nat i)) = Ok x).
Proof.
  exact (iter_list decoded_two_records [record "1"; record "2"] eq_refl).
Defined.

(** X5: when [data] is a mapping, iterating over the decoder produces its
    keys, each one once, and not the record: as many items as the mapping
    has keys, whereas the length of the decoder is 1; and every item
    produced is a valid subscript. *)
Theorem iter_mapping r (m : gmap string pyobj) :
  data r = Some (JDict m) →
  ∃ ks : list string,
    __iter__ r = Ok (JStr <$> ks)
    ∧ NoDup ks
    ∧ (∀ k, k ∈ ks ↔ is_Some (m !! k))
    ∧ length ks = size m
    ∧ __len__ r = Ok 1%nat
    ∧ (∀ k, k ∈ ks → ∃ x, __getitem__ r (KStr k) = Ok x).
Proof.
  intros Hd. exists (map_to_list m).*1.
  assert (∀ k, k ∈ (map_to_list m).*1 ↔ is_Some (m !! k)) as Hin.
  { intros k. rewrite list_elem_of_fmap. split.
    - intros [[k' x] [-> Hx]]. apply elem_of_map_to_list in Hx. by exists x.
    - intros [x Hx]. exists (k, x). split; [done |].
      by apply elem_of_map_to_list. }
  rewrite (iter_set _ _ Hd), (len_set _ _ Hd).
  split; [done |]. split; [apply NoDup_fst_map_to_list |].
  split; [done |]. split; [by rewrite length_fmap, length_map_to_list |].
  split; [done |].
  intros k [x Hx]%Hin. exists x.
  rewrite (getitem_set _ _ _ Hd). simpl. by rewrite Hx.
Qed.

Lemma iter_mapping_witness :
  ∃ ks : list string,
    __iter__ decoded_record = Ok (JStr <$> ks)
    ∧ NoDup ks
    ∧ (∀ k, k ∈ ks ↔ is_Some (({[ "id" := JStr "1" ]} : gmap string pyobj) !! k))
    ∧ length ks = size ({[ "id" := JStr "1" ]} : gmap string pyobj)
    ∧ __len__ decoded_record = Ok 1%nat
    ∧ (∀ k, k ∈ ks → ∃ x, __getitem__ decoded_record (KStr k) = Ok x).
Proof. exact (iter_mapping decoded_record {[ "id" := JStr "1" ]} eq_refl). Defined.

(** X6: when [data] is [None], a boolean or a number, the decoder still
    has length 1, but it cannot be iterated over nor subscripted: both
    raise [TypeError]. *)
Theorem read_view_of_scalar r d :
  data r = Some d →
  d = JNull ∨ (∃ b, d = JBool b) ∨ (∃ n, d = JInt n) →
  __len__ r = Ok 1%nat
  ∧ __iter__ r = Raise TypeError
  ∧ (∀ k, __getitem__ r k = Raise TypeError).
Proof.
  intros Hd Hs. rewrite (iter_set _ _ Hd), (len_set _ _ Hd).
  assert (∀ k, __getitem__ r k = py_getitem d k) as Hg
    by (intros k; by apply getitem_set).
  destruct Hs as [-> | [[b ->] | [n ->]]];
    (split; [done |]; split; [done |]; intros k; rewrite Hg; by destruct k).
Qed.

Lemma read_view_of_scalar_witness :
  __len__ (set_data two_records (JInt 5)) = Ok 1%nat
  ∧ __iter__ (set_data two_records (JInt 5)) = Raise TypeError
  ∧ (∀ k, __getitem__ (set_data two_records (JInt 5)) k = Raise TypeError).
Proof.
  apply (read_view_of_scalar (set_data two_records (JInt 5)) (JInt 5) eq_refl).
  right; right. by exists 5.
Defined.

(** ** [_handle_error] and the status *)

(** X7: which exception [_handle_error] raises is decided by the status
    alone: [ServerError], with the reason phrase as its message and the
    status of the response, exactly when the status is 400 or more;
    [UnexpectedResponseContent], with the text of the body in its message
    and the status 200, exactly when the status is below 400. *)
Theorem handle_error_by_status r :
  (400 ≤ status r
   ↔ _handle_error r = Raise (ServerError (reason r) (status r)))
  ∧ (status r < 400
     ↔ _handle_error r
       = Raise (UnexpectedResponseContent
                  ("Unexpected response received from server: " +:+ text r)
                  200)).
Proof.
  destruct (Z.le_gt_cases 400 (status r)) as [Hs | Hs].
  - rewrite (handle_error_server _ Hs). split; split; try done; try lia.
  - rewrite (handle_error_unexpected _ Hs).
    split; split; try done; lia.
Qed.

Lemma handle_error_by_status_witness :
  _handle_error server_failure
  = Raise (ServerError "Internal Server Error" 500)
  ∧ _handle_error (sample 201 "Created" "[]" (inr (JList [])))
    = Raise (UnexpectedResponseContent
               "Unexpected response received from server: []" 200).
Proof.
  split.
  - apply (proj1 (handle_error_by_status server_failure)).
    vm_compute. discriminate.
  - apply (proj2 (handle_error_by_status
                    (sample 201 "Created" "[]" (inr (JList []))))).
    reflexivity.
Defined.

(** ** [load] on a mapping *)

Lemma ErrorSchema_load_raises v e :
  ErrorSchema_load v = Raise e → e = ValidationError.
Proof.
  unfold ErrorSchema_load. intros H.
  repeat (case_match; simplify_eq); done.
Qed.

Lemma ContentSchema_load_raises v e :
  ContentSchema_load EXCLUDE v = Raise e → e = ValidationError.
Proof.
  destruct v as [| | | | | m]; simpl; try (by intros [= <-]).
  destruct (m !! "error") as [err |]; simpl; [| done].
  destruct (ErrorSchema_load err) as [c | e'] eqn:He; simpl; [done |].
  intros [= <-]. by eapply ErrorSchema_load_raises.
Qed.

Lemma ContentSchema_load_error m c :
  ContentSchema_load EXCLUDE (JDict m) = Ok c →
  (is_Some (error c) ↔ is_Some (m !! "error")) ∧ result c = m !! "result".
Proof.
  simpl. destruct (m !! "error") as [err |]; simpl.
  - destruct (ErrorSchema_load err) as [c' | e']; simpl; [| done].
    intros [= <-]. simpl. split; [| done]. split; by eauto.
  - intros [= <-]. simpl. split; [| done]. split; by intros [? ?].
Qed.

(** The outcomes of [load_content] on a mapping. *)
Lemma load_content_mapping r m :
  match ContentSchema_load EXCLUDE (JDict m) with
  | Raise _ => load_content r (JDict m) = (r, Raise ValidationError)
  | Ok c =>
      match error c, result c with
      | Some _, _ => ∃ msg, load_content r (JDict m)
                            = (r, Raise (RequestError msg (status r)))
      | None, Some x => load_content r (JDict m) = (set_data r x, Ok tt)
      | None, None => load_content r (JDict m)
                      = (r, Raise (KeyError (KStr "result")))
      end
  end.
Proof.
  unfold load_content.
  destruct (ContentSchema_load EXCLUDE (JDict m)) as [c | e] eqn:Hc.
  - destruct (error c), (result c); eauto.
  - by rewrite (ContentSchema_load_raises _ _ Hc).
Qed.

Lemma load_content_outcomes r m :
  (∃ x, load_content r (JDict m) = (set_data r x, Ok tt))
  ∨ (∃ msg, load_content r (JDict m) = (r, Raise (RequestError msg (status r))))
  ∨ load_content r (JDict m) = (r, Raise ValidationError)
  ∨ load_content r (JDict m) = (r, Raise (KeyError (KStr "result"))).
Proof.
  pose proof (load_content_mapping r m) as H.
  destruct (ContentSchema_load EXCLUDE (JDict m)) as [c | e];
    [destruct (error c), (result c) |]; eauto 6.
Qed.

(** X8: when the parsed body is a mapping, the status of the response
    plays no part in whether [load] succeeds: [load] never raises
    [ServerError] nor [UnexpectedResponseContent], and two responses with
    the same body and the same [data] before the call have the same
    [data] after it and both raise or both return, whatever their
    statuses. *)
Theorem load_mapping_ignores_status r (m : gmap string pyobj) :
  json r = inr (JDict m) →
  (∀ msg st, (load r).2 ≠ Raise (ServerError msg st))
  ∧ (∀ msg st, (load r).2 ≠ Raise (UnexpectedResponseContent msg st))
  ∧ (∀ r', json r' = inr (JDict m) → data r' = data r →
           data (load r').1 = data (load r).1
           ∧ raised (load r').2 = raised (load r).2).
Proof.
  intros Hj. rewrite (load_dict _ _ Hj).
  split; [| split].
  - intros msg st.
    destruct (load_content_outcomes r m)
      as [[x ->] | [[msg' ->] | [-> | ->]]]; discriminate.
  - intros msg st.
    destruct (load_content_outcomes r m)
      as [[x ->] | [[msg' ->] | [-> | ->]]]; discriminate.
  - intros r' Hj' Hd. rewrite (load_dict _ _ Hj').
    pose proof (load_content_mapping r m) as H.
    pose proof (load_content_mapping r' m) as H'.
    destruct (ContentSchema_load EXCLUDE (JDict m)) as [c | e];
      [destruct (error c), (result c);
         [destruct H as [? H], H' as [? H'] ..| |] |];
      rewrite H, H'; simpl; auto.
Qed.

Lemma load_mapping_ignores_status_witness :
  (∀ msg st, (load failure_with_result).2 ≠ Raise (ServerError msg st))
  ∧ (∀ msg st,
       (load failure_with_result).2 ≠ Raise (UnexpectedResponseContent msg st))
  ∧ (∀ r', json r' = inr (JDict {[ "result" := JList [record "1"] ]}) →
           data r' = data failure_with_result →
           data (load r').1 = data (load failure_with_result).1
           ∧ raised (load r').2 = raised (load failure_with_result).2).
Proof.
  exact (load_mapping_ignores_status failure_with_result
           {[ "result" := JList [record "1"] ]} eq_refl).
Defined.

(** X9: a body with an ["error"] key never loads, whether or not it also
    has a ["result"]: [load] raises, and leaves the response, [data]
    included, as it was. *)
Theorem error_key_never_loads r (m : gmap string pyobj) :
  json r = inr (JDict m) →
  is_Some (m !! "error") →
  raised (load r).2 = true
  ∧ (load r).1 = r.
Proof.
  intros Hj He. rewrite (load_dict _ _ Hj).
  pose proof (load_content_mapping r m) as H.
  destruct (ContentSchema_load EXCLUDE (JDict m)) as [c | e] eqn:Hc.
  - apply ContentSchema_load_error in Hc as [Herr _].
    destruct (proj2 Herr He) as [err Herr']. rewrite Herr' in H.
    by destruct H as [msg ->].
  - by rewrite H.
Qed.

Lemma error_key_never_loads_witness :
  raised (load error_and_result).2 = true
  ∧ (load error_and_result).1 = error_and_result.
Proof.
  apply (error_key_never_loads error_and_result
           {[ "error" := JDict {[ "message" := JStr "Invalid table";
                                  "detail" := JStr "no such table" ]};
              "result" := JList [record "1"] ]} eq_refl).
  vm_compute. eexists. reflexivity.
Defined.

(** X10: a body that is a mapping with neither an ["error"] nor a
    ["result"] key, the empty mapping for one, makes [load] raise
    [KeyError] for ["result"], with [data] left unassigned. *)
Theorem load_neither_key r (m : gmap string pyobj) :
  json r = inr (JDict m) →
  m !! "error" = None →
  m !! "result" = None →
  load r = (r, Raise (KeyError (KStr "result"))).
Proof.
  intros Hj He Hr. rewrite (load_dict _ _ Hj).
  unfold load_content, ContentSchema_load. by rewrite He, Hr.
Qed.

Lemma load_neither_key_witness :
  load empty_envelope = (empty_envelope, Raise (KeyError (KStr "result"))).
Proof. apply (load_neither_key empty_envelope ∅); reflexivity. Defined.

(** ** What [load] leaves alone, and what it can raise *)

(** X11: [load] changes nothing of the response but [data]: status,
    reason, URL path, text, parsed body and identity are those of before;
    and when it raises, [data] too is as before. *)
Theorem load_frame r :
  status (load r).1 = status r
  ∧ reason (load r).1 = reason r
  ∧ url_path (load r).1 = url_path r
  ∧ text (load r).1 = text r
  ∧ json (load r).1 = json r
  ∧ obj_id (load r).1 = obj_id r
  ∧ (raised (load r).2 = true → data (load r).1 = data r).
Proof.
  destruct (load_cases r) as [[e ->] | [x ->]]; simpl; by repeat split.
Qed.

(** X12: where the three classified errors of [load] come from.  A
    [RequestError] carries the status of the response and is raised only
    on a body that is a mapping.  A [ServerError] carries the reason and
    the status of the response and is raised only on a parsed body that is
    not a mapping, with a status of 400 or more.  An
    [UnexpectedResponseContent] carries the text of the body and the
    status 200 and is raised only on a parsed body that is not a mapping,
    with a status below 400 other than 204. *)
Theorem load_raise_inversion r msg st :
  ((load r).2 = Raise (RequestError msg st) →
     st = status r ∧ ∃ m, json r = inr (JDict m))
  ∧ ((load r).2 = Raise (ServerError msg st) →
       st = status r ∧ msg = reason r ∧ 400 ≤ status r
       ∧ ∃ v, json r = inr v ∧ isinstance_dict v = false)
  ∧ ((load r).2 = Raise (UnexpectedResponseContent msg st) →
       st = 200
       ∧ msg = "Unexpected response received from server: " +:+ text r
       ∧ status r < 400 ∧ status r ≠ 204
       ∧ ∃ v, json r = inr v ∧ isinstance_dict v = false).
Proof.
  destruct (json r) as [f | body] eqn:Hj.
  { rewrite (load_json_failure _ _ Hj). by repeat split. }
  destruct (isinstance_dict body) eqn:Hd.
  - destruct body as [| | | | | m]; try discriminate.
    rewrite (load_dict _ _ Hj).
    destruct (load_content_outcomes r m) as [[x ->] | [[msg' ->] | [-> | ->]]];
      simpl; (split; [| split]); try discriminate.
    intros [= <- <-]. split; [done | by exists m].
  - rewrite (load_not_dict _ _ Hj Hd).
    destruct (Z.eqb_spec (status r) 204) as [H204 | H204].
    { by repeat split. }
    destruct (Z.le_gt_cases 400 (status r)) as [Hs | Hs].
    + rewrite (handle_error_server _ Hs). simpl.
      (split; [| split]); try discriminate.
      intros [= <- <-]. repeat split; try done. by exists body.
    + rewrite (handle_error_unexpected _ Hs). simpl.
      (split; [| split]); try discriminate.
      intros [= <- <-]. repeat split; try done. by exists body.
Qed.

Lemma load_raise_inversion_witness :
  500 = status server_failure
  ∧ "Internal Server Error" = reason server_failure
  ∧ 400 ≤ status server_failure
  ∧ ∃ v, json server_failure = inr v ∧ isinstance_dict v = false.
Proof.
  apply (proj1 (proj2 (load_raise_inversion server_failure
                         "Internal Server Error" 500))).
  reflexivity.
Defined.

Lemma load_frame_witness :
  status (load undecodable).1 = 200
  ∧ reason (load undecodable).1 = "OK"
  ∧ url_path (load undecodable).1 = "/api/now/table/incident"
  ∧ text (load undecodable).1 = "<html>ok</html>"
  ∧ json (load undecodable).1 = inl JSONDecodeError
  ∧ obj_id (load undecodable).1 = 48879%N
  ∧ (raised (load undecodable).2 = true → data (load undecodable).1 = None).
Proof. exact (load_frame undecodable). Defined.

(** ** [load], then the read view *)

Lemma load_of_result r m x :
  json r = inr (JDict m) → m !! "result" = Some x → m !! "error" = None →
  load r = (set_data r x, Ok tt).
Proof.
  intros Hj Hr He. rewrite (load_dict _ _ Hj). unfold load_content.
  by rewrite (ContentSchema_load_result _ _ Hr He).
Qed.

(** X13: after [load] of a body whose ["result"] is a list, with no
    ["error"], the decoder is a view of that list: its length is the
    length of the list, iterating over it produces the list, the subscript
    [i] returns the element at position [i], and the representation
    announces a list of that many items. *)
Theorem load_then_list r (m : gmap string pyobj) (l : list pyobj) :
  json r = inr (JDict m) →
  m !! "result" = Some (JList l) →
  m !! "error" = None →
  (load r).2 = Ok tt
  ∧ __len__ (load r).1 = Ok (length l)
  ∧ __iter__ (load r).1 = Ok l
  ∧ (∀ (i : nat) x, l !! i = Some x →
       __getitem__ (load r).1 (KInt (Z.of_nat i)) = Ok x)
  ∧ __repr__ (load r).1
    = Ok (repr_around r ("List of " +:+ pretty (length l) +:+ " items")).
Proof.
  intros Hj Hr He. rewrite (load_of_result _ _ _ Hj Hr He). simpl.
  split; [done |]. split; [done |]. split; [done |]. split; [| done].
  intros i x Hx. rewrite (getitem_set _ (JList l)) by done.
  by apply py_getitem_list_valid.
Qed.

Lemma load_then_list_witness :
  (load two_records).2 = Ok tt
  ∧ __len__ (load two_records).1 = Ok 2%nat
  ∧ __iter__ (load two_records).1 = Ok [record "1"; record "2"]
  ∧ (∀ (i : nat) x, [record "1"; record "2"] !! i = Some x →
       __getitem__ (load two_records).1 (KInt (Z.of_nat i)) = Ok x)
  ∧ __repr__ (load two_records).1
    = Ok (repr_around two_records ("List of " +:+ pretty 2%nat +:+ " items")).
Proof.
  apply (load_then_list two_records
           {[ "result" := JList [record "1"; record "2"]; "count" := JInt 2 ]}
           [record "1"; record "2"]); reflexivity.
Defined.

(** X14: after [load] of a body whose ["result"] is a mapping, with no
    ["error"], the decoder has length 1 and a string subscript returns the
    field of that name of the record, or raises [KeyError] when the record
    has none. *)
Theorem load_then_record r (m rec : gmap string pyobj) :
  json r = inr (JDict m) →
  m !! "result" = Some (JDict rec) →
  m !! "error" = None →
  (load r).2 = Ok tt
  ∧ __len__ (load r).1 = Ok 1%nat
  ∧ (∀ s x, rec !! s = Some x → __getitem__ (load r).1 (KStr s) = Ok x)
  ∧ (∀ s, rec !! s = None →
          __getitem__ (load r).1 (KStr s) = Raise (KeyError (KStr s))).
Proof.
  intros Hj Hr He. rewrite (load_of_result _ _ _ Hj Hr He). simpl.
  split; [done |]. split; [done |].
  split; intros s; [intros x |]; intros Hs;
    rewrite (getitem_set _ (JDict rec)) by done; simpl; by rewrite Hs.
Qed.

Lemma load_then_record_witness :
  (load one_record).2 = Ok tt
  ∧ __len__ (load one_record).1 = Ok 1%nat
  ∧ (∀ s x, ({[ "id" := JStr "1" ]} : gmap string pyobj) !! s = Some x →
            __getitem__ (load one_record).1 (KStr s) = Ok x)
  ∧ (∀ s, ({[ "id" := JStr "1" ]} : gmap string pyobj) !! s = None →
          __getitem__ (load one_record).1 (KStr s) = Raise (KeyError (KStr s))).
Proof.
  apply (load_then_record one_record {[ "result" := record "1" ]}
           {[ "id" := JStr "1" ]}); reflexivity.
Defined.

(** X15: after [load] of a response with status 204 whose parsed body is
    not a mapping, the decoder has length 1 although it holds nothing:
    iterating over it produces no item, every subscript raises [KeyError],
    and the representation says its content is unknown. *)
Theorem load_then_no_content r v :
  json r = inr v →
  isinstance_dict v = false →
  status r = 204 →
  (load r).2 = Ok tt
  ∧ __len__ (load r).1 = Ok 1%nat
  ∧ __iter__ (load r).1 = Ok []
  ∧ (∀ k, __getitem__ (load r).1 k = Raise (KeyError k))
  ∧ __repr__ (load r).1 = Ok (repr_around r "Unknown").
Proof.
  intros Hj Hd Hs. rewrite (load_not_dict _ _ Hj Hd), Hs. simpl.
  split; [done |]. split; [done |]. split; [| split; [| done]].
  - unfold __iter__. simpl. by rewrite map_to_list_empty.
  - intros [i | s]; [done |]. unfold __getitem__. simpl.
    by rewrite lookup_empty.
Qed.

Lemma load_then_no_content_witness :
  (load no_content).2 = Ok tt
  ∧ __len__ (load no_content).1 = Ok 1%nat
  ∧ __iter__ (load no_content).1 = Ok []
  ∧ (∀ k, __getitem__ (load no_content).1 k = Raise (KeyError k))
  ∧ __repr__ (load no_content).1 = Ok (repr_around no_content "Unknown").
Proof. apply (load_then_no_content no_content JNull); reflexivity. Defined.
